(** * hfst_altlab: weighted lookup and cross-validation layer

    A shallow embedding of [src/hfst_altlab/__init__.py]: the classes
    [TransducerFile] and [TransducerPair].  The HFST engine (the [hfst]
    module) is a collaborator: a loaded transducer is a record whose lookup
    is a function, and the module-level predicate [hfst.is_diacritic] is a
    member of the class [HfstModule].  The names imported from the sibling
    module [.types] are members of the class [TypesModule]. *)

From Stdlib Require Import ZArith QArith String List Bool Lia Sorted Permutation.
From stdpp Require Import base list strings gmap.

Close Scope Q_scope.
Open Scope string_scope.
Open Scope list_scope.

(** ** Python values *)

(** A Python [float] that is not NaN: minus infinity, a finite value, plus
    infinity.  Finite values compare as rationals, so [-0.0] and [0.0] tie. *)
Inductive pyfloat : Type :=
  | NegInfinity
  | Finite (q : Q)
  | PosInfinity.

(** [a < b] on floats, the only comparison [list.sort] performs. *)
Definition float_lt (a b : pyfloat) : bool :=
  match a, b with
  | NegInfinity, NegInfinity => false
  | NegInfinity, _ => true
  | Finite _, NegInfinity => false
  | Finite p, Finite q => negb (Qle_bool q p)
  | Finite _, PosInfinity => true
  | PosInfinity, _ => false
  end.

(** Two keys tie when neither is below the other. *)
Definition float_tie (a b : pyfloat) : bool :=
  negb (float_lt a b) && negb (float_lt b a).

(** [float(x)] of a value that is a float already. *)
Definition float (x : pyfloat) : pyfloat := x.

(** [sep.join(xs)] with [sep = ""]. *)
Definition join (xs : list string) : string := String.concat "" xs.

(** Truth value of a [str]: the empty string is false. *)
Definition str_truthy (s : string) : bool := negb (String.eqb s "").

(** Truth value of a [str | None]. *)
Definition opt_str_truthy (o : option string) : bool :=
  match o with
  | None => false
  | Some s => str_truthy s
  end.

(** ** The engine *)

Inductive ImplementationType : Type :=
  | SFST_TYPE
  | TROPICAL_OPENFST_TYPE
  | LOG_OPENFST_TYPE
  | FOMA_TYPE
  | XFSM_TYPE
  | HFST_OL_TYPE
  | HFST_OLW_TYPE
  | HFST2_TYPE
  | UNSPECIFIED_TYPE
  | ERROR_TYPE.

Definition ImplementationType_eqb (a b : ImplementationType) : bool :=
  match a, b with
  | SFST_TYPE, SFST_TYPE
  | TROPICAL_OPENFST_TYPE, TROPICAL_OPENFST_TYPE
  | LOG_OPENFST_TYPE, LOG_OPENFST_TYPE
  | FOMA_TYPE, FOMA_TYPE
  | XFSM_TYPE, XFSM_TYPE
  | HFST_OL_TYPE, HFST_OL_TYPE
  | HFST_OLW_TYPE, HFST_OLW_TYPE
  | HFST2_TYPE, HFST2_TYPE
  | UNSPECIFIED_TYPE, UNSPECIFIED_TYPE
  | ERROR_TYPE, ERROR_TYPE => true
  | _, _ => false
  end.

(** A weighted transduction as the engine returns it with [output="raw"]:
    a weight and the symbols of the path, flag diacritics and empty
    symbols included. *)
Definition raw_transduction : Type := pyfloat * list string.

(** An [hfst.HfstTransducer] as this layer sees it. *)
Record HfstTransducer : Type := mkHfstTransducer {
  (* transducer.lookup(input, time_cutoff=cutoff, output="raw") *)
  hfst_lookup : string -> Z -> list raw_transduction;
  is_infinitely_ambiguous : bool;
  get_type : ImplementationType;
  get_alphabet : list string
}.

(** [transducer.lookup_optimize()]: the transducer is converted in place to
    the weighted optimized-lookup form; what it transduces is unchanged. *)
Definition lookup_optimize (t : HfstTransducer) : HfstTransducer :=
  {| hfst_lookup := hfst_lookup t;
     is_infinitely_ambiguous := is_infinitely_ambiguous t;
     get_type := HFST_OLW_TYPE;
     get_alphabet := get_alphabet t |}.

(** Module-level functions of [hfst] used by this layer. *)
Class HfstModule : Type := {
  is_diacritic : string -> bool
}.

(** ** The records of [.types] *)

Record Analysis : Type := mkAnalysis {
  prefixes : list string;
  lemma : string;
  suffixes : list string
}.

(** Modelled from the spec: the class [Wordform] of [.types] (section 3,
    "a weighted surface string candidate"): a weight and its symbols. *)
Record Wordform : Type := mkWordform {
  wordform_weight : pyfloat;
  wordform_tokens : list string
}.

(** Modelled from the spec: the class [FullAnalysis] of [.types] (section 3
    and section 4.4).  It is built from a weight, the candidate's raw
    (undecoded) symbol sequence and the standardized form, and is never
    mutated.  [__init__.py] reads three attributes of it: [flag_diacritics],
    which [lookup_symbols] filters symbol by symbol and which therefore
    holds the raw sequence the object was built from, [standardized], and
    [analysis], the decoded form (see [FullAnalysis_analysis] below). *)
Record FullAnalysis : Type := mkFullAnalysis {
  weight : pyfloat;
  flag_diacritics : list string;
  standardized : option string
}.

(** What the lookup functions accept: [str | Wordform | FullAnalysis]. *)
Inductive fst_input : Type :=
  | InStr (s : string)
  | InWordform (w : Wordform)
  | InFullAnalysis (a : FullAnalysis).

(** The functions of [.types] this file imports, and the two methods of its
    classes it relies on. *)
Class TypesModule : Type := {
  as_fst_input : fst_input -> string;
  fst_output_format : list string -> string;
  (* how FullAnalysis decodes its symbols into its [analysis] attribute *)
  decode : list string -> Analysis;
  (* Wordform.__str__ and FullAnalysis.__str__ *)
  Wordform_str : Wordform -> string;
  FullAnalysis_str : FullAnalysis -> string
}.

(** [str(input)]. *)
Definition py_str `{TypesModule} (i : fst_input) : string :=
  match i with
  | InStr s => s
  | InWordform w => Wordform_str w
  | InFullAnalysis a => FullAnalysis_str a
  end.

Definition FullAnalysis_analysis `{TypesModule} (a : FullAnalysis) : Analysis :=
  decode (flag_diacritics a).

(** ** TransducerFile *)

Record TransducerFile : Type := mkTransducerFile {
  cutoff : Z;
  transducer : HfstTransducer
}.

Section Lookup.
Context `{HfstModule} `{TypesModule}.

(** [TransducerFile._weighted_lookup]; its argument is already a [str]. *)
Definition _weighted_lookup (self : TransducerFile) (input : string)
  : list raw_transduction :=
  hfst_lookup (transducer self) input (cutoff self).

(** The loop of the inner [generate] of [weighted_lookup_full_analysis]
    when a generator is given, from the state [entry]. *)
Fixpoint generate_loop (entry : option string) (results : list raw_transduction)
  : option string :=
  match results with
  | [] => entry
  | (_, output) :: rest =>
      let candidate := join output in
      if opt_str_truthy entry
         && negb (bool_decide (entry = Some candidate))
      then None
      else generate_loop (Some candidate) rest
  end.

(** The inner function [generate], for either value of [generator]. *)
Definition generate (generator : option TransducerFile) (tokens : list string)
  : option string :=
  match generator with
  | Some g => generate_loop None (_weighted_lookup g (fst_output_format tokens))
  | None => None
  end.

Definition weighted_lookup_full_analysis
    (self : TransducerFile) (wordform : fst_input)
    (generator : option TransducerFile) : list FullAnalysis :=
  map (fun '(w, tokens) => mkFullAnalysis (float w) tokens (generate generator tokens))
      (_weighted_lookup self (as_fst_input wordform)).

Definition weighted_lookup_full_wordform
    (self : TransducerFile) (analysis : fst_input) : list Wordform :=
  map (fun '(w, tokens) => mkWordform (float w) tokens)
      (_weighted_lookup self (as_fst_input analysis)).

(** The comprehension's condition [x and not hfst.is_diacritic(x)]. *)
Definition keep_symbol (x : string) : bool :=
  str_truthy x && negb (is_diacritic x).

(** The inner comprehension of [lookup_symbols]: the symbol filter. *)
Definition filter_symbols (xs : list string) : list string :=
  List.filter keep_symbol xs.

Definition lookup_symbols (self : TransducerFile) (input : string)
  : list (list string) :=
  map (fun analysis => filter_symbols (flag_diacritics analysis))
      (weighted_lookup_full_analysis self (InStr input) None).

Definition lookup (self : TransducerFile) (input : string) : list string :=
  map join (lookup_symbols self input).

Definition lookup_lemma_with_affixes (self : TransducerFile) (surface_form : string)
  : list Analysis :=
  map FullAnalysis_analysis
      (weighted_lookup_full_analysis self (InStr surface_form) None).

(** The dict comprehension of [bulk_lookup]: keys are assigned in order,
    a repeated key overwrites its entry. *)
Definition bulk_lookup (self : TransducerFile) (words : list string)
  : gmap string (gset string) :=
  foldl (fun d word => <[word := list_to_set (lookup self word)]> d) ∅ words.

Definition symbol_count (self : TransducerFile) : nat :=
  length (get_alphabet (transducer self)).

End Lookup.

(** ** Loading: the file system, streams and exceptions *)

(** What [hfst.HfstInputStream] finds in an existing file. *)
Inductive FileContent : Type :=
  | NotTransducerStream
  | TransducerStream (transducers : list HfstTransducer).

(** The part of the world [TransducerFile.__init__] touches: the files by
    path, the input streams that are open (by handle), the next fresh
    handle, and what was printed. *)
Record World : Type := mkWorld {
  files : gmap string FileContent;
  open_streams : list nat;
  next_stream : nat;
  stdout : list string
}.

Inductive exn : Type :=
  | FileNotFoundError (msg : string)
  | NotTransducerStreamException (args : list string)
  | ValueError (notes : list string)
  | RuntimeWarning (msg : string)
  | IndexError (msg : string).

Inductive result (A : Type) : Type :=
  | Raise (e : exn)
  | Return (a : A).
Arguments Raise {A} e.
Arguments Return {A} a.

(** An [hfst.HfstInputStream] object: its handle and the file it reads. *)
Record InputStream : Type := mkInputStream {
  stream_handle : nat;
  stream_file : string
}.

(** Computations that read and write the world and may raise. *)
Definition IO (A : Type) : Type := World -> result A * World.

Definition ret {A} (a : A) : IO A := fun w => (Return a, w).
Definition raise {A} (e : exn) : IO A := fun w => (Raise e, w).
Definition bind {A B} (m : IO A) (k : A -> IO B) : IO B :=
  fun w =>
    match m w with
    | (Raise e, w') => (Raise e, w')
    | (Return a, w') => k a w'
    end.

(** [try: m except: handler]. *)
Definition try_except {A} (m : IO A) (handler : exn -> IO A) : IO A :=
  fun w =>
    match m w with
    | (Raise e, w') => handler e w'
    | (Return a, w') => (Return a, w')
    end.

Declare Scope io_scope.
Delimit Scope io_scope with io.
Notation "x <- m ;; k" := (bind m (fun x => k))
  (at level 100, m at next level, right associativity) : io_scope.
Notation "m ;;; k" := (bind m (fun _ => k))
  (at level 100, right associativity) : io_scope.

(** [Path(filename).exists()] *)
Definition Path_exists (filename : string) : IO bool :=
  fun w => (Return (bool_decide (is_Some (files w !! filename))), w).

(** [hfst.HfstInputStream(filename)]: a newly opened stream, or
    [NotTransducerStreamException] with the engine's own message. *)
Definition HfstInputStream (engine_msg : string) (filename : string) : IO InputStream :=
  fun w =>
    match files w !! filename with
    | Some (TransducerStream _) =>
        (Return (mkInputStream (next_stream w) filename),
         {| files := files w;
            open_streams := next_stream w :: open_streams w;
            next_stream := S (next_stream w);
            stdout := stdout w |})
    | _ => (Raise (NotTransducerStreamException [engine_msg]), w)
    end.

(** [stream.read_all()] *)
Definition read_all (stream : InputStream) : IO (list HfstTransducer) :=
  fun w =>
    match files w !! stream_file stream with
    | Some (TransducerStream ts) => (Return ts, w)
    | _ => (Return [], w)
    end.

(** [stream.close()] *)
Definition close (stream : InputStream) : IO unit :=
  fun w =>
    (Return tt,
     {| files := files w;
        open_streams :=
          List.filter (fun s => negb (Nat.eqb s (stream_handle stream))) (open_streams w);
        next_stream := next_stream w;
        stdout := stdout w |}).

Definition print (line : string) : IO unit :=
  fun w =>
    (Return tt,
     {| files := files w;
        open_streams := open_streams w;
        next_stream := next_stream w;
        stdout := stdout w ++ [line] |}).

Definition not_found_message (filename : string) : string :=
  "Transducer not found: ‘" ++ filename ++ "’".

Definition single_transducer_note : string :=
  "We expected a single transducer to arise in the file.".

Definition infinitely_ambiguous_message : string :=
  "The transducer is infinitely ambiguous.".

Record TransducerPair : Type := mkTransducerPair {
  analyser : TransducerFile;
  generator : TransducerFile
}.

Section Load.
(** The message the engine itself puts in [NotTransducerStreamException]. *)
Variable engine_msg : string.

Open Scope io_scope.

(** [TransducerFile.__init__] *)
Definition TransducerFile_init (filename : string) (search_cutoff : Z)
  : IO TransducerFile :=
  found <- Path_exists filename ;;
  if negb found then raise (FileNotFoundError (not_found_message filename))
  else
    stream <- try_except (HfstInputStream engine_msg filename)
                (fun e =>
                   match e with
                   | NotTransducerStreamException _ =>
                       raise (NotTransducerStreamException ["wrong or corrupt file?"])
                   | _ => raise e
                   end) ;;
    transducers <- read_all stream ;;
    if negb (Nat.eqb (length transducers) 1)
    then
      close stream ;;;
      raise (ValueError [single_transducer_note])
    else
      close stream ;;;
      match transducers with
      | [] => raise (IndexError "list index out of range")
      | t :: _ =>
          if is_infinitely_ambiguous t
          then raise (RuntimeWarning infinitely_ambiguous_message)
          else if negb (existsb (ImplementationType_eqb (get_type t))
                          [HFST_OL_TYPE; HFST_OLW_TYPE])
          then
            print "Transducer not optimized.  Optimizing..." ;;;
            print "Done." ;;;
            ret (mkTransducerFile search_cutoff (lookup_optimize t))
          else ret (mkTransducerFile search_cutoff t)
      end.

(** [TransducerPair.__init__] *)
Definition TransducerPair_init (analyser_path generator_path : string)
    (search_cutoff : Z) : IO TransducerPair :=
  a <- TransducerFile_init analyser_path search_cutoff ;;
  g <- TransducerFile_init generator_path search_cutoff ;;
  ret (mkTransducerPair a g).

End Load.

(** The world once a stream was opened on a file and closed again: a
    handle was used up, and the stream is not among the open ones. *)
Definition opened_and_closed (w : World) : World :=
  {| files := files w;
     open_streams :=
       List.filter (fun s => negb (Nat.eqb s (next_stream w)))
                   (next_stream w :: open_streams w);
     next_stream := S (next_stream w);
     stdout := stdout w |}.

(** The world once these lines were printed. *)
Definition printed (lines : list string) (w : World) : World :=
  {| files := files w;
     open_streams := open_streams w;
     next_stream := next_stream w;
     stdout := stdout w ++ lines |}.

(** ** Sorting and the pair's operations *)

Section Sort.
Context {A K : Type}.
Variable lt : K -> K -> bool.
Variable key : A -> K.

(** [x] enters a sorted list before the first element whose key is not
    below its own: it passes only elements with a strictly smaller key. *)
Fixpoint sort_insert (x : A) (l : list A) : list A :=
  match l with
  | [] => [x]
  | y :: l' =>
      if lt (key y) (key x) then y :: sort_insert x l' else x :: y :: l'
  end.

(** [l.sort(key=key)]: Python's sort is stable and compares keys with [<]
    only; on keys that [<] orders totally up to ties there is one such
    arrangement of [l], the one this insertion sort computes. *)
Definition list_sort (l : list A) : list A := foldr sort_insert [] l.
End Sort.

Section Pair.
Context `{HfstModule} `{TypesModule}.

(** The inner function [key] of [TransducerPair.analyse]. *)
Definition analyse_key (distance : string -> string -> pyfloat) (source : string)
    (other : FullAnalysis) : pyfloat :=
  match standardized other with
  | None => PosInfinity
  | Some s => distance source s
  end.

(** [TransducerPair.analyse] *)
Definition analyse (self : TransducerPair) (input : fst_input)
    (distance : option (string -> string -> pyfloat)) : list FullAnalysis :=
  let candidate :=
    weighted_lookup_full_analysis (analyser self) input (Some (generator self)) in
  match distance with
  | Some d => list_sort float_lt (analyse_key d (py_str input)) candidate
  | None => candidate
  end.

(** The argument of [TransducerPair.generate]: an [Analysis], or anything
    the lookup accepts. *)
Inductive generate_input : Type :=
  | GenAnalysis (a : Analysis)
  | GenOther (i : fst_input).

(** [TransducerPair.generate] *)
Definition TransducerPair_generate (self : TransducerPair) (analysis : generate_input)
  : list Wordform :=
  let input :=
    match analysis with
    | GenAnalysis a => InStr (join (prefixes a) ++ lemma a ++ join (suffixes a))
    | GenOther i => i
    end in
  weighted_lookup_full_wordform (generator self) input.
End Pair.

(** ** A small engine, for running the definitions on concrete inputs *)

(** Symbols written [@...@] count as flag diacritics here. *)
Definition example_is_diacritic (s : string) : bool :=
  String.prefix "@" s && Nat.ltb 1 (String.length s).

Definition example_hfst : HfstModule :=
  {| is_diacritic := example_is_diacritic |}.

Definition example_types : TypesModule :=
  {| as_fst_input := fun i =>
       match i with
       | InStr s => s
       | InWordform w => join (wordform_tokens w)
       | InFullAnalysis a => join (flag_diacritics a)
       end;
     fst_output_format := join;
     decode := fun tokens => mkAnalysis [] (join tokens) [];
     Wordform_str := fun w => join (wordform_tokens w);
     FullAnalysis_str := fun a => join (flag_diacritics a) |}.

(** The answers of a transducer given as a table; an input that is not in
    the table has no transduction. *)
Fixpoint table_lookup (table : list (string * list raw_transduction)) (input : string)
  : list raw_transduction :=
  match table with
  | [] => []
  | (k, v) :: rest => if String.eqb k input then v else table_lookup rest input
  end.

Definition table_transducer (table : list (string * list raw_transduction))
    (ambiguous : bool) (ty : ImplementationType) : HfstTransducer :=
  {| hfst_lookup := fun input _ => table_lookup table input;
     is_infinitely_ambiguous := ambiguous;
     get_type := ty;
     get_alphabet := [] |}.

Definition weight_zero : pyfloat := Finite 0%Q.

(** An analyser that knows "go" (three paths, two of them alike once the
    flag and the empty symbol are dropped) and "x". *)
Definition example_analyser : TransducerFile :=
  mkTransducerFile 60
    (table_transducer
       [("go", [(weight_zero, ["g"; "@P.X.Y@"; "o"]); (weight_zero, ["g"; ""; "o"]); (weight_zero, ["went"])]);
        ("x", [(weight_zero, ["x"; "+N"])])]
       false HFST_OLW_TYPE).

(** Five files, and one stream that somebody else holds open. *)
Definition example_world : World :=
  {| files :=
       <["analyser.hfstol" := TransducerStream [transducer example_analyser]]>
       (<["generator.hfst" :=
            TransducerStream [table_transducer [] false TROPICAL_OPENFST_TYPE]]>
       (<["loop.hfst" :=
            TransducerStream [table_transducer [] true HFST_OLW_TYPE]]>
       (<["two.hfst" :=
            TransducerStream [transducer example_analyser; transducer example_analyser]]>
       (<["notes.txt" := NotTransducerStream]> ∅))));
     open_streams := [0];
     next_stream := 1;
     stdout := [] |}.

(** The handle that loading "generator.hfst" gives: the transducer of the
    file, optimized for lookup. *)
Definition example_loaded : TransducerFile :=
  mkTransducerFile 60
    (lookup_optimize (table_transducer [] false TROPICAL_OPENFST_TYPE)).

(** An analyser with two readings of "x" and one of "e", and a generator
    that has no form for the first reading of "x", one form for the second,
    and for "e" an empty output followed by "a".  Of the four readings of
    "ab" the generator gives back "abcd", "a" (on two paths), two forms
    that differ, and "b". *)
Definition example_pair : TransducerPair :=
  mkTransducerPair
    (mkTransducerFile 60
       (table_transducer
          [("x", [(weight_zero, ["x"; "+N"]); (weight_zero, ["x"; "+V"])]);
           ("e", [(weight_zero, ["e"])]);
           ("ab", [(weight_zero, ["ab"; "+A"]); (weight_zero, ["ab"; "+B"]); (weight_zero, ["ab"; "+C"]);
                   (weight_zero, ["ab"; "+D"])])]
          false HFST_OLW_TYPE))
    (mkTransducerFile 60
       (table_transducer
          [("x+V", [(weight_zero, ["y"])]);
           ("e", [(weight_zero, []); (weight_zero, ["a"])]);
           ("ab+A", [(weight_zero, ["abcd"])]);
           ("ab+B", [(weight_zero, ["a"]); (Finite 1%Q, ["a"])]);
           ("ab+C", [(weight_zero, ["a"]); (Finite 1%Q, ["@P.X.Y@"; "a"])]);
           ("ab+D", [(weight_zero, ["b"])])]
          false HFST_OLW_TYPE)).

(** A distance that tells nothing: every pair of strings is infinitely far. *)
Definition infinite_distance (x y : string) : pyfloat := PosInfinity.

(** The distance of the ranking example: [abs(len(x) - len(y))]. *)
Definition length_distance (x y : string) : pyfloat :=
  Finite (inject_Z (Z.abs (Z.of_nat (String.length x) - Z.of_nat (String.length y)))).

(** A distance that is finite only between a string and a prefix of it, the
    difference of their lengths, and plus infinity between unrelated
    strings. *)
Definition prefix_distance (x y : string) : pyfloat :=
  if String.prefix x y || String.prefix y x
  then length_distance x y
  else PosInfinity.

(** The reading of "sorts last" under test: nothing that has a standardized
    form comes after a candidate that has none. *)
Definition absent_after_all_standardized (l : list FullAnalysis) : Prop :=
  forall l1 a l2,
    l = l1 ++ a :: l2 ->
    standardized a = None ->
    List.Forall (fun b => standardized b = None) l2.

(** The analyser of [example_pair] with a generator that knows no form. *)
Definition example_pair_mute : TransducerPair :=
  mkTransducerPair (analyser example_pair)
    (mkTransducerFile 60 (table_transducer [] false HFST_OLW_TYPE)).

(** * Properties *)

(** ** The symbol filter and the unweighted lookups *)

Section LookupFacts.
Context `{HfstModule} `{TypesModule}.

Lemma keep_symbol_spec (x : string) :
  keep_symbol x = true <-> x <> "" /\ is_diacritic x = false.
Proof.
  unfold keep_symbol, str_truthy.
  rewrite andb_true_iff, !negb_true_iff.
  destruct (String.eqb_spec x ""); intuition congruence.
Qed.

Lemma filter_symbols_elem (xs : list string) (x : string) :
  In x (filter_symbols xs) <-> In x xs /\ x <> "" /\ is_diacritic x = false.
Proof.
  unfold filter_symbols. rewrite filter_In, keep_symbol_spec. reflexivity.
Qed.

(** The filter keeps the order of what it keeps. *)
Lemma filter_symbols_sublist (xs : list string) : sublist (filter_symbols xs) xs.
Proof.
  induction xs as [|x xs IH]; simpl.
  - constructor.
  - destruct (keep_symbol x); now constructor.
Qed.

(** C8: applying the symbol filter (empty tokens and flag diacritics
    removed) twice gives the same sequence as applying it once. *)
Theorem filter_symbols_idempotent (xs : list string) :
  filter_symbols (filter_symbols xs) = filter_symbols xs.
Proof.
  induction xs as [|x xs IH]; simpl.
  - reflexivity.
  - destruct (keep_symbol x) eqn:Hx; simpl.
    + rewrite Hx. f_equal. exact IH.
    + exact IH.
Qed.

Lemma weighted_lookup_full_analysis_no_generator (self : TransducerFile) (i : fst_input) :
  weighted_lookup_full_analysis self i None =
  map (fun r => mkFullAnalysis (fst r) (snd r) None)
      (_weighted_lookup self (as_fst_input i)).
Proof.
  unfold weighted_lookup_full_analysis.
  apply map_ext. intros [w tokens]. reflexivity.
Qed.

(** C5: [lookup] returns one string per weighted transduction of the
    engine, in the engine's order and without dropping duplicates: the
    concatenation of those symbols of the transduction that are neither
    the empty string nor a flag diacritic, in their order.  Each string is
    the concatenation of a subsequence of the raw symbols that holds no
    empty symbol and no flag diacritic and misses no other symbol. *)
Theorem lookup_flat_strings (self : TransducerFile) (input : string) :
  lookup self input =
    map (fun r =>
           join (List.filter
                   (fun x => negb (String.eqb x "") && negb (is_diacritic x))
                   (snd r)))
        (hfst_lookup (transducer self) (as_fst_input (InStr input)) (cutoff self))
  /\ length (lookup self input) =
     length (hfst_lookup (transducer self) (as_fst_input (InStr input)) (cutoff self))
  /\ Forall2
       (fun s raw =>
          exists out,
            s = join out
            /\ sublist out (snd raw)
            /\ List.Forall (fun x => x <> "" /\ is_diacritic x = false) out
            /\ (forall x, In x (snd raw) -> x <> "" -> is_diacritic x = false ->
                          In x out))
       (lookup self input)
       (hfst_lookup (transducer self) (as_fst_input (InStr input)) (cutoff self)).
Proof.
  assert (Heq : lookup self input =
    map (fun r => join (filter_symbols (snd r)))
        (hfst_lookup (transducer self) (as_fst_input (InStr input)) (cutoff self))).
  { unfold lookup, lookup_symbols.
    rewrite weighted_lookup_full_analysis_no_generator.
    unfold _weighted_lookup. rewrite !map_map. reflexivity. }
  split; [exact Heq|].
  split; [rewrite Heq; apply length_map|].
  rewrite Heq. clear Heq.
  induction (hfst_lookup (transducer self) (as_fst_input (InStr input)) (cutoff self))
    as [|r raw IH]; simpl; [constructor|].
  constructor; [|exact IH].
  exists (filter_symbols (snd r)).
  split; [reflexivity|]. split; [apply filter_symbols_sublist|]. split.
  - apply List.Forall_forall. intros x Hx. now apply filter_symbols_elem in Hx.
  - intros x Hx Hne Hd. apply filter_symbols_elem. auto.
Qed.

(** C9: without a generator every [FullAnalysis] that
    [weighted_lookup_full_analysis] returns has no standardized form, and
    [lookup_symbols], [lookup] and [lookup_lemma_with_affixes] read exactly
    that list. *)
Theorem no_generator_standardized_absent (self : TransducerFile) (i : fst_input)
    (input : string) :
  Forall (fun a => standardized a = None) (weighted_lookup_full_analysis self i None)
  /\ lookup_symbols self input =
     map (fun a => filter_symbols (flag_diacritics a))
         (weighted_lookup_full_analysis self (InStr input) None)
  /\ lookup self input =
     map (fun a => join (filter_symbols (flag_diacritics a)))
         (weighted_lookup_full_analysis self (InStr input) None)
  /\ lookup_lemma_with_affixes self input =
     map FullAnalysis_analysis (weighted_lookup_full_analysis self (InStr input) None).
Proof.
  repeat split.
  - rewrite weighted_lookup_full_analysis_no_generator.
    apply List.Forall_forall. intros a Ha.
    apply in_map_iff in Ha as [r [<- _]]. reflexivity.
  - unfold lookup, lookup_symbols. now rewrite map_map.
Qed.

(** ** Bulk lookup *)

Lemma bulk_lookup_fold (self : TransducerFile) (words : list string)
    (d : gmap string (gset string)) (word : string) :
  foldl (fun d word => <[word := list_to_set (lookup self word)]> d) d words !! word =
  if bool_decide (word ∈ words)
  then Some (list_to_set (lookup self word))
  else d !! word.
Proof.
  revert d. induction words as [|x words IH]; intros d; simpl.
  - reflexivity.
  - rewrite IH.
    destruct (bool_decide (word ∈ words)) eqn:Hin.
    + apply bool_decide_eq_true in Hin.
      rewrite bool_decide_eq_true_2 by (now right). reflexivity.
    + apply bool_decide_eq_false in Hin.
      destruct (decide (x = word)) as [->|Hne].
      * rewrite lookup_insert_eq.
        rewrite bool_decide_eq_true_2 by (now left). reflexivity.
      * rewrite lookup_insert_ne by exact Hne.
        rewrite bool_decide_eq_false_2; [reflexivity|].
        intros Hc. apply elem_of_cons in Hc as [->|Hc]; [now apply Hne|now apply Hin].
Qed.

(** C6: the mapping [bulk_lookup] returns has an entry for a word exactly
    when the word is among the inputs, one entry however often the word is
    repeated, and the entry is the set of that word's [lookup] outputs. *)
Theorem bulk_lookup_entries (self : TransducerFile) (words : list string) :
  (forall word : string,
     bulk_lookup self words !! word =
     if bool_decide (word ∈ words)
     then Some (list_to_set (lookup self word))
     else None)
  /\ dom (bulk_lookup self words) = list_to_set words
  /\ size (bulk_lookup self words) = length (remove_dups words).
Proof.
  assert (Hl : forall word : string,
     bulk_lookup self words !! word =
     if bool_decide (word ∈ words)
     then Some (list_to_set (lookup self word))
     else None).
  { intros word. unfold bulk_lookup. rewrite bulk_lookup_fold.
    now rewrite lookup_empty. }
  assert (Hd : dom (bulk_lookup self words) = list_to_set words).
  { apply set_eq. intros word.
    rewrite elem_of_dom, Hl, elem_of_list_to_set.
    destruct (bool_decide (word ∈ words)) eqn:Hin.
    - apply bool_decide_eq_true in Hin. split; [auto|eauto].
    - apply bool_decide_eq_false in Hin. split; [intros [? ?]; discriminate|tauto]. }
  split; [exact Hl|]. split; [exact Hd|].
  rewrite <- size_dom, Hd.
  assert (Hs : (list_to_set words : gset string) = list_to_set (remove_dups words)).
  { apply set_eq. intros word.
    now rewrite !elem_of_list_to_set, elem_of_remove_dups. }
  rewrite Hs. apply size_list_to_set, NoDup_remove_dups.
Qed.

End LookupFacts.

(** ** Loading *)

Section LoadFacts.
Variable engine_msg : string.

(** [TransducerFile.__init__] by what the path holds. *)
Lemma TransducerFile_init_cases (filename : string) (search_cutoff : Z) (w : World) :
  TransducerFile_init engine_msg filename search_cutoff w =
  match files w !! filename with
  | None => (Raise (FileNotFoundError (not_found_message filename)), w)
  | Some NotTransducerStream =>
      (Raise (NotTransducerStreamException ["wrong or corrupt file?"]), w)
  | Some (TransducerStream [t]) =>
      if is_infinitely_ambiguous t
      then (Raise (RuntimeWarning infinitely_ambiguous_message), opened_and_closed w)
      else if negb (existsb (ImplementationType_eqb (get_type t))
                      [HFST_OL_TYPE; HFST_OLW_TYPE])
      then (Return (mkTransducerFile search_cutoff (lookup_optimize t)),
            printed ["Transducer not optimized.  Optimizing..."; "Done."]
                    (opened_and_closed w))
      else (Return (mkTransducerFile search_cutoff t), opened_and_closed w)
  | Some (TransducerStream _) =>
      (Raise (ValueError [single_transducer_note]), opened_and_closed w)
  end.
Proof.
  unfold TransducerFile_init, bind, try_except, Path_exists, HfstInputStream, read_all.
  destruct (files w !! filename) as [[|ts]|] eqn:Hf;
    simpl; rewrite ?Hf; simpl; rewrite ?Hf; simpl; try reflexivity.
  destruct ts as [|t [|t' ts]]; simpl; try reflexivity.
  destruct (is_infinitely_ambiguous t); [reflexivity|].
  destruct (negb _); [|reflexivity].
  unfold opened_and_closed, printed, print, bind, ret. simpl.
  rewrite <- app_assoc. reflexivity.
Qed.

Lemma TransducerFile_init_cutoff (filename : string) (search_cutoff : Z)
    (w w' : World) (h : TransducerFile) :
  TransducerFile_init engine_msg filename search_cutoff w = (Return h, w') ->
  cutoff h = search_cutoff.
Proof.
  rewrite TransducerFile_init_cases.
  destruct (files w !! filename) as [[|[|t [|t' ts]]]|]; try discriminate.
  destruct (is_infinitely_ambiguous t); [discriminate|].
  destruct (negb _); intros [= <- _]; reflexivity.
Qed.

(** C4: loading fails with [FileNotFoundError] when the path does not
    exist, with [NotTransducerStreamException] carrying exactly
    "wrong or corrupt file?" when the file is not a transducer stream, and
    with the [ValueError] about a single transducer when the file holds any
    number of transducers other than one; and whenever it succeeds it
    returns a handle on the one transducer of the file, with the cutoff
    asked for. *)
Theorem load_error_taxonomy (filename : string) (search_cutoff : Z) (w : World) :
  (files w !! filename = None ->
   fst (TransducerFile_init engine_msg filename search_cutoff w) =
   Raise (FileNotFoundError (not_found_message filename)))
  /\ (files w !! filename = Some NotTransducerStream ->
      fst (TransducerFile_init engine_msg filename search_cutoff w) =
      Raise (NotTransducerStreamException ["wrong or corrupt file?"]))
  /\ (forall ts, files w !! filename = Some (TransducerStream ts) ->
      length ts <> 1 ->
      fst (TransducerFile_init engine_msg filename search_cutoff w) =
      Raise (ValueError [single_transducer_note]))
  /\ (forall h, fst (TransducerFile_init engine_msg filename search_cutoff w) = Return h ->
      exists t, files w !! filename = Some (TransducerStream [t])
                /\ cutoff h = search_cutoff
                /\ hfst_lookup (transducer h) = hfst_lookup t
                /\ existsb (ImplementationType_eqb (get_type (transducer h)))
                     [HFST_OL_TYPE; HFST_OLW_TYPE] = true).
Proof.
  rewrite TransducerFile_init_cases.
  repeat split.
  - intros ->. reflexivity.
  - intros ->. reflexivity.
  - intros ts -> Hlen. destruct ts as [|t [|t' ts]]; simpl in *; congruence.
  - intros h.
    destruct (files w !! filename) as [[|[|t [|t' ts]]]|]; try discriminate.
    destruct (is_infinitely_ambiguous t); [discriminate|].
    destruct (negb _) eqn:Hty; simpl; intros [= <-]; exists t; repeat split.
    apply negb_false_iff in Hty. exact Hty.
Qed.

(** C7: once the file was opened as a stream and read, the stream is closed
    whatever follows: it is no longer open when the [ValueError] about the
    number of transducers is raised, nor when the one transducer was taken
    out, and the streams that were open before are the ones open after. *)
Theorem load_closes_stream (filename : string) (search_cutoff : Z) (w : World)
    (ts : list HfstTransducer) :
  files w !! filename = Some (TransducerStream ts) ->
  let r := fst (TransducerFile_init engine_msg filename search_cutoff w) in
  let w' := snd (TransducerFile_init engine_msg filename search_cutoff w) in
  next_stream w' = S (next_stream w)
  /\ ~ In (next_stream w) (open_streams w')
  /\ open_streams w' =
     List.filter (fun s => negb (Nat.eqb s (next_stream w))) (open_streams w)
  /\ (length ts <> 1 -> r = Raise (ValueError [single_transducer_note]))
  /\ (length ts = 1 -> r <> Raise (ValueError [single_transducer_note])).
Proof.
  intros Hf. simpl.
  rewrite TransducerFile_init_cases, Hf.
  assert (Hw : next_stream (opened_and_closed w) = S (next_stream w)
    /\ ~ In (next_stream w) (open_streams (opened_and_closed w))
    /\ open_streams (opened_and_closed w) =
       List.filter (fun s => negb (Nat.eqb s (next_stream w))) (open_streams w)).
  { unfold opened_and_closed; simpl. rewrite Nat.eqb_refl. simpl.
    repeat split.
    rewrite filter_In, negb_true_iff, Nat.eqb_neq. tauto. }
  destruct ts as [|t [|t' ts]]; simpl.
  - intuition congruence.
  - destruct (is_infinitely_ambiguous t); [|destruct (negb _)]; simpl;
      intuition congruence.
  - intuition congruence.
Qed.

(** Under the bookkeeping of handles (every open stream has a handle below
    the next fresh one), loading leaves exactly the streams it found. *)
Lemma load_leaves_streams (filename : string) (search_cutoff : Z) (w : World) :
  List.Forall (fun s => s < next_stream w) (open_streams w) ->
  open_streams (snd (TransducerFile_init engine_msg filename search_cutoff w)) =
  open_streams w.
Proof.
  intros Hfresh.
  assert (Hoc : open_streams (opened_and_closed w) = open_streams w).
  { unfold opened_and_closed; simpl. rewrite Nat.eqb_refl. simpl.
    induction Hfresh as [|s l Hs _ IH]; simpl; [reflexivity|].
    destruct (Nat.eqb_spec s (next_stream w)); [lia|]. simpl. now rewrite IH. }
  rewrite TransducerFile_init_cases.
  destruct (files w !! filename) as [[|[|t [|t' ts]]]|]; simpl; try easy.
  destruct (is_infinitely_ambiguous t); [|destruct (negb _)]; simpl; easy.
Qed.

(** C2, as the code has it: when the one transducer of the file reports
    infinite ambiguity, [RuntimeWarning] is raised as an exception, after
    the stream was closed; the constructor does not complete and no handle
    is returned. *)
Theorem infinitely_ambiguous_load_raises (filename : string) (search_cutoff : Z)
    (w : World) (t : HfstTransducer) :
  files w !! filename = Some (TransducerStream [t]) ->
  is_infinitely_ambiguous t = true ->
  TransducerFile_init engine_msg filename search_cutoff w =
    (Raise (RuntimeWarning infinitely_ambiguous_message), opened_and_closed w)
  /\ (forall h, fst (TransducerFile_init engine_msg filename search_cutoff w) <> Return h).
Proof.
  intros Hf Hinf. rewrite TransducerFile_init_cases, Hf, Hinf.
  split; [reflexivity|]. intros h. discriminate.
Qed.

(** C10: a pair that was constructed with [search_cutoff] has that one
    cutoff in its analyser and in its generator. *)
Theorem pair_shares_cutoff (analyser_path generator_path : string) (search_cutoff : Z)
    (w w' : World) (p : TransducerPair) :
  TransducerPair_init engine_msg analyser_path generator_path search_cutoff w
    = (Return p, w') ->
  cutoff (analyser p) = search_cutoff
  /\ cutoff (generator p) = search_cutoff
  /\ cutoff (analyser p) = cutoff (generator p).
Proof.
  unfold TransducerPair_init, bind, ret.
  destruct (TransducerFile_init engine_msg analyser_path search_cutoff w)
    as [[e|a] w1] eqn:Ha; [discriminate|].
  destruct (TransducerFile_init engine_msg generator_path search_cutoff w1)
    as [[e|g] w2] eqn:Hg; [discriminate|].
  intros [= <- _]. simpl.
  apply TransducerFile_init_cutoff in Ha, Hg. now rewrite Ha, Hg.
Qed.

End LoadFacts.

(** ** The order of floats *)

Lemma float_lt_Finite (p q : Q) :
  float_lt (Finite p) (Finite q) = true <-> (p < q)%Q.
Proof.
  simpl. rewrite negb_true_iff, <- not_true_iff_false, Qle_bool_iff.
  split; [apply Qnot_le_lt | apply Qlt_not_le].
Qed.

Lemma float_ge_Finite (p q : Q) :
  float_lt (Finite p) (Finite q) = false <-> (q <= p)%Q.
Proof.
  simpl. now rewrite negb_false_iff, Qle_bool_iff.
Qed.

Lemma float_lt_irrefl (a : pyfloat) : float_lt a a = false.
Proof.
  destruct a as [|q|]; try reflexivity.
  apply float_ge_Finite, Qle_refl.
Qed.

Lemma float_lt_asym (a b : pyfloat) : float_lt a b = true -> float_lt b a = false.
Proof.
  destruct a as [|p|], b as [|q|]; try easy.
  rewrite float_lt_Finite, float_ge_Finite. apply Qlt_le_weak.
Qed.

(** [a <= b] and [b <= c] give [a <= c], with [x <= y] read as "not [y < x]". *)
Lemma float_le_trans (a b c : pyfloat) :
  float_lt b a = false -> float_lt c b = false -> float_lt c a = false.
Proof.
  destruct a as [|p|], b as [|q|], c as [|r|]; try easy.
  rewrite !float_ge_Finite. apply Qle_trans.
Qed.

(** [a < b] and [b <= c] give [a < c]. *)
Lemma float_lt_le_trans (a b c : pyfloat) :
  float_lt a b = true -> float_lt c b = false -> float_lt a c = true.
Proof.
  destruct a as [|p|], b as [|q|], c as [|r|]; try easy.
  rewrite !float_lt_Finite, float_ge_Finite. apply Qlt_le_trans.
Qed.

(** Two keys that tie with a third are not strictly ordered. *)
Lemma float_tie_not_lt (x y k : pyfloat) :
  float_tie x k = true -> float_tie y k = true -> float_lt y x = false.
Proof.
  unfold float_tie. rewrite !andb_true_iff, !negb_true_iff.
  intros [Hxk Hkx] [Hyk Hky].
  apply (float_le_trans x k y); assumption.
Qed.

(** Only plus infinity is not below plus infinity. *)
Lemma float_not_below_infinity (a : pyfloat) :
  float_lt a PosInfinity = false <-> a = PosInfinity.
Proof. destruct a; simpl; intuition congruence. Qed.

(** ** The sort *)

Section SortFacts.
Context {A K : Type}.
Variable lt : K -> K -> bool.
Variable key : A -> K.

Lemma sort_insert_perm (x : A) (l : list A) :
  Permutation (sort_insert lt key x l) (x :: l).
Proof.
  induction l as [|y l IH]; simpl.
  - reflexivity.
  - destruct (lt (key y) (key x)).
    + rewrite IH. apply perm_swap.
    + reflexivity.
Qed.

Lemma list_sort_perm (l : list A) : Permutation (list_sort lt key l) l.
Proof.
  induction l as [|x l IH]; simpl.
  - reflexivity.
  - rewrite sort_insert_perm. now apply perm_skip.
Qed.

(** Stability: the elements picked by [P] keep their order when no picked
    element passes another, that is when no two of them are strictly
    ordered by key. *)
Lemma sort_insert_filter (P : A -> bool) (x : A) (l : list A) :
  (forall y, In y l -> P x = true -> P y = true -> lt (key y) (key x) = false) ->
  List.filter P (sort_insert lt key x l) = List.filter P (x :: l).
Proof.
  induction l as [|y l IH]; intros Hno; [reflexivity|].
  cbn [sort_insert].
  destruct (lt (key y) (key x)) eqn:Hlt; [|reflexivity].
  assert (IH' : List.filter P (sort_insert lt key x l) = List.filter P (x :: l)).
  { apply IH. intros z Hz. apply Hno. now right. }
  cbn [List.filter] in *. rewrite IH'.
  destruct (P x) eqn:Px, (P y) eqn:Py; try reflexivity.
  specialize (Hno y (or_introl eq_refl) eq_refl Py). congruence.
Qed.

Lemma list_sort_filter (P : A -> bool) (l : list A) :
  (forall x y, P x = true -> P y = true -> lt (key y) (key x) = false) ->
  List.filter P (list_sort lt key l) = List.filter P l.
Proof.
  intros Hno. induction l as [|x l IH]; [reflexivity|].
  cbn [list_sort foldr]. fold (list_sort lt key l).
  rewrite sort_insert_filter by (intros y _; apply Hno).
  cbn [List.filter]. now rewrite IH.
Qed.

Hypothesis lt_asym : forall a b, lt a b = true -> lt b a = false.
Hypothesis le_trans :
  forall a b c, lt b a = false -> lt c b = false -> lt c a = false.

Lemma sort_insert_sorted (x : A) (l : list A) :
  StronglySorted (fun a b => lt (key b) (key a) = false) l ->
  StronglySorted (fun a b => lt (key b) (key a) = false) (sort_insert lt key x l).
Proof.
  induction 1 as [|y l Hs IH Hy]; simpl.
  - repeat constructor.
  - destruct (lt (key y) (key x)) eqn:Hlt.
    + constructor; [exact IH|].
      apply List.Forall_forall. intros z Hz.
      apply (Permutation_in _ (sort_insert_perm x l)) in Hz.
      destruct Hz as [<-|Hz].
      * now apply lt_asym.
      * rewrite List.Forall_forall in Hy. now apply Hy.
    + constructor; [now constructor|].
      constructor; [exact Hlt|].
      rewrite List.Forall_forall in Hy |- *. intros z Hz.
      apply (le_trans _ (key y)); [exact Hlt|now apply Hy].
Qed.

Lemma list_sort_sorted (l : list A) :
  StronglySorted (fun a b => lt (key b) (key a) = false) (list_sort lt key l).
Proof.
  induction l as [|x l IH]; simpl.
  - constructor.
  - now apply sort_insert_sorted.
Qed.

End SortFacts.

(** In a sorted list, what follows an element is not below it. *)
Lemma StronglySorted_after {A : Type} (R : A -> A -> Prop) (l1 l2 : list A) (a : A) :
  StronglySorted R (l1 ++ a :: l2) -> List.Forall (R a) l2.
Proof.
  induction l1 as [|x l1 IH]; simpl; intros Hs.
  - now apply StronglySorted_inv in Hs as [_ Hs].
  - apply StronglySorted_inv in Hs as [Hs _]. now apply IH.
Qed.

(** ** Standardization *)

Section StandardizationFacts.
Context `{HfstModule} `{TypesModule}.

(** While nothing, or only the empty string, was seen, the next surface
    string is taken without comparison. *)
Lemma generate_loop_falsy (entry : option string) (r : raw_transduction)
    (rest : list raw_transduction) :
  opt_str_truthy entry = false ->
  generate_loop entry (r :: rest) = generate_loop (Some (join (snd r))) rest.
Proof.
  intros He. destruct r as [w output]. simpl. now rewrite He.
Qed.

(** Once a non-empty surface string was seen, every later one must equal it. *)
Lemma generate_loop_truthy (s : string) (results : list raw_transduction) :
  str_truthy s = true ->
  generate_loop (Some s) results =
  if forallb (fun r => String.eqb (join (snd r)) s) results then Some s else None.
Proof.
  intros Hs. induction results as [|[w output] rest IH]; [reflexivity|].
  cbn [generate_loop forallb snd opt_str_truthy]. rewrite Hs.
  destruct (String.eqb_spec (join output) s) as [->|Hne]; cbn [andb].
  - rewrite bool_decide_eq_true_2 by reflexivity. exact IH.
  - rewrite bool_decide_eq_false_2 by congruence. reflexivity.
Qed.

(** Unanimous results, of any number above zero, give their surface string. *)
Lemma generate_loop_unanimous (s : string) (entry : option string)
    (results : list raw_transduction) :
  results <> [] ->
  (entry = None \/ entry = Some s) ->
  List.Forall (fun r => join (snd r) = s) results ->
  generate_loop entry results = Some s.
Proof.
  intros Hne He Hall. revert entry He Hne.
  induction Hall as [|[w output] rest Hr Hrest IH]; intros entry He Hne; [now destruct Hne|].
  cbn [generate_loop]. simpl in Hr. rewrite Hr.
  assert (Hgo : opt_str_truthy entry && negb (bool_decide (entry = Some s)) = false).
  { destruct He as [->| ->]; [reflexivity|].
    rewrite bool_decide_eq_true_2 by reflexivity. apply andb_false_r. }
  rewrite Hgo.
  destruct rest as [|r rest]; [reflexivity|].
  apply IH; [now right|easy].
Qed.

(** No result, no standardized form. *)
Lemma generate_no_result (g : TransducerFile) (tokens : list string) :
  _weighted_lookup g (fst_output_format tokens) = [] ->
  generate (Some g) tokens = None.
Proof. unfold generate. now intros ->. Qed.

(** Two results that differ give no standardized form, provided no result
    is the empty string. *)
Lemma generate_loop_disagree (results : list raw_transduction)
    (r1 r2 : raw_transduction) :
  List.Forall (fun r => join (snd r) <> "") results ->
  In r1 results -> In r2 results -> join (snd r1) <> join (snd r2) ->
  generate_loop None results = None.
Proof.
  intros Hall H1 H2 Hne.
  destruct results as [|r rest]; [easy|].
  rewrite generate_loop_falsy by reflexivity.
  apply Forall_cons_1 in Hall as [Hr Hrest].
  rewrite generate_loop_truthy
    by (unfold str_truthy; now destruct (String.eqb_spec (join (snd r)) "")).
  destruct (forallb (fun x => String.eqb (join (snd x)) (join (snd r))) rest) eqn:Hfa;
    [|reflexivity].
  rewrite forallb_forall in Hfa.
  assert (Heq : forall x, In x (r :: rest) -> join (snd x) = join (snd r)).
  { intros x [<-|Hx]; [reflexivity|]. now apply String.eqb_eq, Hfa. }
  exfalso. apply Hne. now rewrite (Heq r1 H1), (Heq r2 H2).
Qed.

End StandardizationFacts.

(** C1: the generator answers the candidate "e" with two distinct surface
    strings, the empty one and then "a", and the candidate's standardized
    form is "a" all the same. *)
Theorem standardized_after_empty_output :
  map (fun r => join (snd r))
      (@_weighted_lookup (generator example_pair) (@fst_output_format example_types ["e"]))
    = [""; "a"]
  /\ map standardized
       (@weighted_lookup_full_analysis example_types
          (analyser example_pair) (InStr "e") (Some (generator example_pair)))
     = [Some "a"].
Proof. split; reflexivity. Qed.

(** ** Ranking by distance *)

Section RankingFacts.
Context `{HfstModule} `{TypesModule}.

Lemma analyse_without_distance (self : TransducerPair) (input : fst_input) :
  analyse self input None =
  weighted_lookup_full_analysis (analyser self) input (Some (generator self)).
Proof. reflexivity. Qed.

Lemma analyse_key_absent (d : string -> string -> pyfloat) (source : string)
    (a : FullAnalysis) :
  standardized a = None -> analyse_key d source a = PosInfinity.
Proof. unfold analyse_key. now intros ->. Qed.

(** C3, as the code has it: with a distance function, [analyse] returns the
    analyser's candidates (standardized against the generator) rearranged
    in ascending order of their key, where the key of a candidate is the
    distance from the source string to its standardized form, or plus
    infinity when it has none; candidates whose keys tie keep the order
    they had; and what comes after a candidate without standardized form
    has none either or is at distance plus infinity, so that every
    candidate at a distance below plus infinity comes before every
    candidate without standardized form. *)
Theorem analyse_sorts_by_distance (self : TransducerPair) (input : fst_input)
    (distance : string -> string -> pyfloat) :
  let candidate :=
    weighted_lookup_full_analysis (analyser self) input (Some (generator self)) in
  let key := fun a : FullAnalysis =>
    match standardized a with
    | Some s => distance (py_str input) s
    | None => PosInfinity
    end in
  let sorted := analyse self input (Some distance) in
  Permutation sorted candidate
  /\ StronglySorted (fun a b => float_lt (key b) (key a) = false) sorted
  /\ (forall k : pyfloat,
        List.filter (fun c => float_tie (key c) k) sorted =
        List.filter (fun c => float_tie (key c) k) candidate)
  /\ (forall l1 a l2,
        sorted = l1 ++ a :: l2 ->
        standardized a = None ->
        List.Forall
          (fun b =>
             match standardized b with
             | Some s => distance (py_str input) s = PosInfinity
             | None => True
             end) l2).
Proof.
  intros candidate key sorted.
  assert (Hsorted : StronglySorted (fun a b => float_lt (key b) (key a) = false) sorted).
  { apply (list_sort_sorted float_lt (analyse_key distance (py_str input)));
      [exact float_lt_asym|exact float_le_trans]. }
  split; [apply list_sort_perm|].
  split; [exact Hsorted|].
  split.
  { intros k.
    apply (list_sort_filter float_lt (analyse_key distance (py_str input))).
    intros x y Hx Hy. exact (float_tie_not_lt _ _ k Hx Hy). }
  intros l1 a l2 Hsplit Ha.
  rewrite Hsplit in Hsorted. apply StronglySorted_after in Hsorted.
  eapply List.Forall_impl; [|exact Hsorted].
  intros b Hb. unfold key in Hb. rewrite Ha in Hb.
  apply float_not_below_infinity in Hb.
  destruct (standardized b); [exact Hb|exact I].
Qed.

End RankingFacts.

(** C3, as it is worded, fails: against the source "ab" and under a
    distance that is finite only between a string and a prefix of it, "a"
    (distance 1) moves in front of "abcd" (distance 2), and the reading
    without standardized form ties with the one standardized to "b"
    (distance plus infinity) and stays in front of it. *)
Lemma absent_before_standardized_at_infinity :
  map standardized (@analyse example_types example_pair (InStr "ab") None)
    = [Some "abcd"; Some "a"; None; Some "b"]
  /\ map standardized
       (@analyse example_types example_pair (InStr "ab") (Some prefix_distance))
     = [Some "a"; Some "abcd"; None; Some "b"]
  /\ ~ absent_after_all_standardized
         (@analyse example_types example_pair (InStr "ab") (Some prefix_distance)).
Proof.
  split; [reflexivity|]. split; [reflexivity|].
  intros Hlast.
  specialize (Hlast [mkFullAnalysis weight_zero ["ab"; "+B"] (Some "a");
                     mkFullAnalysis weight_zero ["ab"; "+A"] (Some "abcd")]
                    (mkFullAnalysis weight_zero ["ab"; "+C"] None)
                    [mkFullAnalysis weight_zero ["ab"; "+D"] (Some "b")]
                    eq_refl eq_refl).
  apply Forall_cons_1 in Hlast as [Hb _]. discriminate.
Qed.

Lemma analyse_sorts_by_distance_witness :
  Permutation
    (@analyse example_types example_pair (InStr "ab") (Some prefix_distance))
    (@weighted_lookup_full_analysis example_types
       (analyser example_pair) (InStr "ab") (Some (generator example_pair)))
  /\ StronglySorted
       (fun a b =>
          float_lt
            match standardized b with
            | Some s => prefix_distance "ab" s
            | None => PosInfinity
            end
            match standardized a with
            | Some s => prefix_distance "ab" s
            | None => PosInfinity
            end = false)
       [mkFullAnalysis weight_zero ["ab"; "+B"] (Some "a");
        mkFullAnalysis weight_zero ["ab"; "+A"] (Some "abcd");
        mkFullAnalysis weight_zero ["ab"; "+C"] None;
        mkFullAnalysis weight_zero ["ab"; "+D"] (Some "b")]
  /\ List.Forall
       (fun b =>
          match standardized b with
          | Some s => prefix_distance "ab" s = PosInfinity
          | None => True
          end)
       [mkFullAnalysis weight_zero ["ab"; "+D"] (Some "b")].
Proof.
  destruct (@analyse_sorts_by_distance example_types example_pair (InStr "ab")
              prefix_distance)
    as (Hperm & Hsorted & _ & Hlast).
  split; [exact Hperm|]. split; [exact Hsorted|].
  exact (Hlast [mkFullAnalysis weight_zero ["ab"; "+B"] (Some "a");
                mkFullAnalysis weight_zero ["ab"; "+A"] (Some "abcd")]
               (mkFullAnalysis weight_zero ["ab"; "+C"] None)
               [mkFullAnalysis weight_zero ["ab"; "+D"] (Some "b")]
               eq_refl eq_refl).
Defined.

(** The ranking example: against the source "ab" and under the distance in
    lengths, "a" and "b" (distance 1, in their former order) come before
    "abcd" (distance 2), and the reading without standardized form is last. *)
Example analyse_ranking_example :
  map standardized (@analyse example_types example_pair (InStr "ab") None)
    = [Some "abcd"; Some "a"; None; Some "b"]
  /\ map standardized
       (@analyse example_types example_pair (InStr "ab") (Some length_distance))
     = [Some "a"; Some "b"; Some "abcd"; None].
Proof. split; reflexivity. Qed.

(** ** The properties at concrete inputs *)

Example lookup_example :
  @lookup example_hfst example_types example_analyser "go" = ["go"; "go"; "went"]
  /\ @lookup_symbols example_hfst example_types example_analyser "go"
     = [["g"; "o"]; ["g"; "o"]; ["went"]].
Proof. split; reflexivity. Qed.

Example bulk_lookup_example :
  size (@bulk_lookup example_hfst example_types example_analyser ["x"; "x"]) = 1
  /\ @bulk_lookup example_hfst example_types example_analyser ["go"] !! "go"
     = Some {["go"; "went"]}.
Proof. split; vm_compute; reflexivity. Qed.

(** C2, as it is worded, fails: the file "loop.hfst" holds one transducer,
    which reports infinite ambiguity, and constructing a [TransducerFile]
    on it returns no handle. *)
Lemma infinitely_ambiguous_load_yields_no_handle :
  files example_world !! "loop.hfst"
    = Some (TransducerStream [table_transducer [] true HFST_OLW_TYPE])
  /\ is_infinitely_ambiguous (table_transducer [] true HFST_OLW_TYPE) = true
  /\ ~ exists h w',
         TransducerFile_init "" "loop.hfst" 60 example_world = (Return h, w').
Proof.
  split; [vm_compute; reflexivity|]. split; [reflexivity|].
  intros (h & w' & Hload).
  apply (f_equal fst) in Hload. vm_compute in Hload. discriminate.
Qed.

Lemma infinitely_ambiguous_load_raises_witness :
  fst (TransducerFile_init "" "loop.hfst" 60 example_world)
    = Raise (RuntimeWarning "The transducer is infinitely ambiguous.")
  /\ open_streams (snd (TransducerFile_init "" "loop.hfst" 60 example_world)) = [0].
Proof.
  destruct (infinitely_ambiguous_load_raises "" "loop.hfst" 60 example_world
              (table_transducer [] true HFST_OLW_TYPE))
    as [Hraise _]; [vm_compute; reflexivity|reflexivity|].
  rewrite Hraise. split; reflexivity.
Defined.

Lemma load_error_taxonomy_witness :
  fst (TransducerFile_init "" "missing.hfst" 60 example_world)
    = Raise (FileNotFoundError "Transducer not found: ‘missing.hfst’")
  /\ fst (TransducerFile_init "" "notes.txt" 60 example_world)
     = Raise (NotTransducerStreamException ["wrong or corrupt file?"])
  /\ fst (TransducerFile_init "" "two.hfst" 60 example_world)
     = Raise (ValueError ["We expected a single transducer to arise in the file."])
  /\ exists t,
       files example_world !! "generator.hfst" = Some (TransducerStream [t])
       /\ cutoff example_loaded = 60%Z
       /\ hfst_lookup (transducer example_loaded) = hfst_lookup t
       /\ existsb (ImplementationType_eqb (get_type (transducer example_loaded)))
            [HFST_OL_TYPE; HFST_OLW_TYPE] = true.
Proof.
  split.
  { apply (proj1 (load_error_taxonomy "" "missing.hfst" 60 example_world)).
    vm_compute; reflexivity. }
  split.
  { apply (proj1 (proj2 (load_error_taxonomy "" "notes.txt" 60 example_world))).
    vm_compute; reflexivity. }
  split.
  { apply (proj1 (proj2 (proj2 (load_error_taxonomy "" "two.hfst" 60 example_world)))
             [transducer example_analyser; transducer example_analyser]).
    - vm_compute; reflexivity.
    - simpl; lia. }
  apply (proj2 (proj2 (proj2 (load_error_taxonomy "" "generator.hfst" 60 example_world)))).
  vm_compute; reflexivity.
Defined.

Lemma load_closes_stream_witness :
  fst (TransducerFile_init "" "two.hfst" 60 example_world)
    = Raise (ValueError ["We expected a single transducer to arise in the file."])
  /\ open_streams (snd (TransducerFile_init "" "two.hfst" 60 example_world)) = [0]
  /\ open_streams (snd (TransducerFile_init "" "analyser.hfstol" 60 example_world)) = [0].
Proof.
  destruct (load_closes_stream "" "two.hfst" 60 example_world
              [transducer example_analyser; transducer example_analyser])
    as (_ & _ & Hopen & Herr & _); [vm_compute; reflexivity|].
  destruct (load_closes_stream "" "analyser.hfstol" 60 example_world
              [transducer example_analyser])
    as (_ & _ & Hopen' & _); [vm_compute; reflexivity|].
  split; [apply Herr; simpl; lia|].
  split; [rewrite Hopen; reflexivity|rewrite Hopen'; reflexivity].
Defined.

Lemma pair_shares_cutoff_witness :
  exists p,
    fst (TransducerPair_init "" "analyser.hfstol" "generator.hfst" 45 example_world)
      = Return p
    /\ cutoff (analyser p) = 45%Z
    /\ cutoff (generator p) = 45%Z.
Proof.
  exists (mkTransducerPair
            (mkTransducerFile 45 (transducer example_analyser))
            (mkTransducerFile 45
               (lookup_optimize (table_transducer [] false TROPICAL_OPENFST_TYPE)))).
  split; [vm_compute; reflexivity|].
  destruct (pair_shares_cutoff "" "analyser.hfstol" "generator.hfst" 45 example_world
              (snd (TransducerPair_init "" "analyser.hfstol" "generator.hfst" 45
                      example_world))
              (mkTransducerPair
                 (mkTransducerFile 45 (transducer example_analyser))
                 (mkTransducerFile 45
                    (lookup_optimize (table_transducer [] false TROPICAL_OPENFST_TYPE)))))
    as (Ha & Hg & _); [vm_compute; reflexivity|].
  split; [exact Ha|exact Hg].
Defined.

(** * Further properties of the lookups *)

Lemma string_app_cons (c : Ascii.ascii) (a b : string) :
  (String c a ++ b)%string = String c (a ++ b)%string.
Proof. reflexivity. Qed.

Lemma string_app_nil_r (a : string) : (a ++ "")%string = a.
Proof.
  induction a as [|c a IH]; [reflexivity|]. now rewrite string_app_cons, IH.
Qed.

Lemma string_app_assoc (a b c : string) :
  ((a ++ b) ++ c = a ++ (b ++ c))%string.
Proof.
  induction a as [|ch a IH]; [reflexivity|]. now rewrite !string_app_cons, IH.
Qed.

Lemma join_cons (x : string) (xs : list string) :
  join (x :: xs) = (x ++ join xs)%string.
Proof.
  unfold join. destruct xs as [|y ys].
  - cbn [String.concat]. now rewrite string_app_nil_r.
  - reflexivity.
Qed.

Lemma join_app (xs ys : list string) :
  join (xs ++ ys) = (join xs ++ join ys)%string.
Proof.
  induction xs as [|x xs IH].
  - reflexivity.
  - rewrite <- app_comm_cons, !join_cons, IH. symmetry. apply string_app_assoc.
Qed.

Section LookupCoverage.
Context `{HfstModule} `{TypesModule}.

Lemma weighted_lookup_full_analysis_map (self : TransducerFile) (i : fst_input)
    (g : option TransducerFile) :
  weighted_lookup_full_analysis self i g =
  map (fun r => mkFullAnalysis (fst r) (snd r) (generate g (snd r)))
      (_weighted_lookup self (as_fst_input i)).
Proof.
  unfold weighted_lookup_full_analysis.
  apply map_ext. intros [w tokens]. reflexivity.
Qed.

(** X2: when the generator answers a candidate with at least one
    transduction and all of them concatenate to the same surface string,
    that string is the standardized form. *)
Theorem generate_unanimous (g : TransducerFile) (tokens : list string) (s : string) :
  _weighted_lookup g (fst_output_format tokens) <> [] ->
  List.Forall (fun r => join (snd r) = s) (_weighted_lookup g (fst_output_format tokens)) ->
  generate (Some g) tokens = Some s.
Proof.
  intros Hne Hall. unfold generate.
  apply generate_loop_unanimous; [exact Hne|now left|exact Hall].
Qed.

Lemma generate_loop_last (entry : option string) (results : list raw_transduction)
    (s : string) :
  generate_loop entry results = Some s ->
  (results = [] /\ entry = Some s)
  \/ exists r, last results = Some r /\ join (snd r) = s.
Proof.
  revert entry. induction results as [|[w output] rest IH]; intros entry Hs.
  - left. now split.
  - right. cbn [generate_loop] in Hs.
    destruct (opt_str_truthy entry && negb (bool_decide (entry = Some (join output))));
      [discriminate|].
    apply IH in Hs as [[-> [= <-]]|(r & Hlast & Hr)].
    + exists (w, output). now split.
    + exists r. split; [|exact Hr].
      destruct rest as [|r' rest]; [discriminate|exact Hlast].
Qed.

(** X3: a standardized form is never made up: when [generate] returns a
    string, the generator returned at least one transduction, and the
    string is the concatenation of the symbols of the last one. *)
Theorem generate_is_generator_output (g : TransducerFile) (tokens : list string)
    (s : string) :
  generate (Some g) tokens = Some s ->
  exists r, last (_weighted_lookup g (fst_output_format tokens)) = Some r
            /\ In r (_weighted_lookup g (fst_output_format tokens))
            /\ join (snd r) = s.
Proof.
  unfold generate. intros Hs.
  apply generate_loop_last in Hs as [[_ [=]]|(r & Hlast & Hr)].
  exists r. split; [exact Hlast|]. split; [|exact Hr].
  apply list_elem_of_In. now apply last_Some_elem_of.
Qed.

(** X4: when no surface string of the generator is empty and two of them
    differ, the candidate has no standardized form. *)
Theorem generate_disagreement (g : TransducerFile) (tokens : list string)
    (r1 r2 : raw_transduction) :
  List.Forall (fun r => join (snd r) <> "") (_weighted_lookup g (fst_output_format tokens)) ->
  In r1 (_weighted_lookup g (fst_output_format tokens)) ->
  In r2 (_weighted_lookup g (fst_output_format tokens)) ->
  join (snd r1) <> join (snd r2) ->
  generate (Some g) tokens = None.
Proof.
  intros Hall H1 H2 Hne. unfold generate.
  now apply (generate_loop_disagree _ r1 r2).
Qed.

(** X5: [lookup_symbols] returns one list per transduction of the engine,
    in order; each list is a subsequence of that transduction's raw
    symbols, holds no empty symbol and no flag diacritic, and holds every
    raw symbol that is neither. *)
Theorem lookup_symbols_filtered (self : TransducerFile) (input : string) :
  Forall2
    (fun out raw =>
       sublist out (snd raw)
       /\ List.Forall (fun x => x <> "" /\ is_diacritic x = false) out
       /\ (forall x, In x (snd raw) -> x <> "" -> is_diacritic x = false -> In x out))
    (lookup_symbols self input)
    (hfst_lookup (transducer self) (as_fst_input (InStr input)) (cutoff self)).
Proof.
  unfold lookup_symbols. rewrite weighted_lookup_full_analysis_map, map_map.
  unfold _weighted_lookup. simpl.
  induction (hfst_lookup (transducer self) (as_fst_input (InStr input)) (cutoff self))
    as [|r raw IH]; simpl; constructor; [|exact IH].
  split; [apply filter_symbols_sublist|]. split.
  - apply List.Forall_forall. intros x Hx. now apply filter_symbols_elem in Hx.
  - intros x Hx Hne Hd. apply filter_symbols_elem. auto.
Qed.

(** X6: [lookup], [lookup_symbols] and [lookup_lemma_with_affixes] answer
    an input with lists of one length, the number of transductions of the
    engine, so [lookup] is empty exactly when the engine has no
    transduction; a transduction all of whose symbols are filtered out is
    not dropped, it gives the empty string. *)
Theorem lookups_aligned (self : TransducerFile) (input : string) :
  length (lookup self input)
    = length (hfst_lookup (transducer self) (as_fst_input (InStr input)) (cutoff self))
  /\ length (lookup_symbols self input)
     = length (hfst_lookup (transducer self) (as_fst_input (InStr input)) (cutoff self))
  /\ length (lookup_lemma_with_affixes self input)
     = length (hfst_lookup (transducer self) (as_fst_input (InStr input)) (cutoff self))
  /\ (lookup self input = [] <->
      hfst_lookup (transducer self) (as_fst_input (InStr input)) (cutoff self) = [])
  /\ (forall r,
        In r (hfst_lookup (transducer self) (as_fst_input (InStr input)) (cutoff self)) ->
        filter_symbols (snd r) = [] ->
        In "" (lookup self input)).
Proof.
  assert (Heq : lookup self input =
    map (fun r => join (filter_symbols (snd r)))
        (hfst_lookup (transducer self) (as_fst_input (InStr input)) (cutoff self))).
  { unfold lookup, lookup_symbols.
    rewrite weighted_lookup_full_analysis_map, !map_map. reflexivity. }
  split; [rewrite Heq; apply length_map|].
  split; [unfold lookup_symbols;
          rewrite weighted_lookup_full_analysis_map, !length_map; reflexivity|].
  split; [unfold lookup_lemma_with_affixes;
          rewrite weighted_lookup_full_analysis_map, !length_map; reflexivity|].
  split.
  - rewrite Heq.
    destruct (hfst_lookup (transducer self) (as_fst_input (InStr input)) (cutoff self));
      simpl; split; intros; congruence.
  - intros r Hr Hempty. rewrite Heq. apply in_map_iff.
    exists r. split; [now rewrite Hempty|exact Hr].
Qed.

(** X7: [bulk_lookup] depends on which words are asked for, not on their
    order or on how often each is repeated. *)
Theorem bulk_lookup_set_of_words (self : TransducerFile) (words1 words2 : list string) :
  (forall word : string, word ∈ words1 <-> word ∈ words2) ->
  bulk_lookup self words1 = bulk_lookup self words2.
Proof.
  intros Hsame. apply map_eq. intros word.
  unfold bulk_lookup. rewrite !bulk_lookup_fold, !lookup_empty.
  destruct (decide (word ∈ words1)) as [Hin|Hout].
  - rewrite !bool_decide_eq_true_2; [reflexivity|now apply Hsame|exact Hin].
  - rewrite !bool_decide_eq_false_2; [reflexivity|now rewrite <- Hsame|exact Hout].
Qed.

(** X8: in the mapping of [bulk_lookup] a word that was not asked for has
    no entry, and a word has the empty set as its entry exactly when it was
    asked for and the engine has no transduction for it. *)
Theorem bulk_lookup_no_analysis (self : TransducerFile) (words : list string)
    (word : string) :
  (bulk_lookup self words !! word = None <-> word ∉ words)
  /\ (bulk_lookup self words !! word = Some ∅ <->
      word ∈ words /\
      hfst_lookup (transducer self) (as_fst_input (InStr word)) (cutoff self) = []).
Proof.
  assert (Hempty : lookup self word = [] <->
    hfst_lookup (transducer self) (as_fst_input (InStr word)) (cutoff self) = []).
  { unfold lookup, lookup_symbols.
    rewrite weighted_lookup_full_analysis_map, !map_map. unfold _weighted_lookup.
    destruct (hfst_lookup (transducer self) (as_fst_input (InStr word)) (cutoff self));
      simpl; split; intros; congruence. }
  unfold bulk_lookup. rewrite bulk_lookup_fold, lookup_empty.
  destruct (decide (word ∈ words)) as [Hin|Hout].
  - rewrite bool_decide_eq_true_2 by exact Hin. split.
    + split; [discriminate|tauto].
    + rewrite <- Hempty. split.
      * intros [= Hset]. split; [exact Hin|].
        destruct (lookup self word) as [|x l]; [reflexivity|].
        exfalso. apply (not_elem_of_empty (C:=gset string) x).
        rewrite <- Hset. apply elem_of_list_to_set. now left.
      * intros [_ ->]. reflexivity.
  - rewrite bool_decide_eq_false_2 by exact Hout. split.
    + tauto.
    + split; [discriminate|tauto].
Qed.

End LookupCoverage.

(** * Further properties of loading *)

Section LoadCoverage.
Variable engine_msg : string.

Lemma TransducerFile_init_files (filename : string) (search_cutoff : Z) (w : World) :
  files (snd (TransducerFile_init engine_msg filename search_cutoff w)) = files w.
Proof.
  rewrite TransducerFile_init_cases.
  destruct (files w !! filename) as [[|[|t [|t' ts]]]|]; try reflexivity.
  destruct (is_infinitely_ambiguous t); [|destruct (negb _)]; reflexivity.
Qed.

Lemma TransducerFile_init_outcome (filename : string) (search_cutoff : Z)
    (w1 w2 : World) :
  files w1 = files w2 ->
  fst (TransducerFile_init engine_msg filename search_cutoff w1) =
  fst (TransducerFile_init engine_msg filename search_cutoff w2).
Proof.
  intros Hfiles. rewrite !TransducerFile_init_cases, Hfiles.
  destruct (files w2 !! filename) as [[|[|t [|t' ts]]]|]; try reflexivity.
  destruct (is_infinitely_ambiguous t); [|destruct (negb _)]; reflexivity.
Qed.

(** X9: loading a file whose one transducer is not infinitely ambiguous
    succeeds.  A transducer that is already in one of the two
    optimized-lookup forms is stored as it is and nothing is printed; any
    other is stored optimized for lookup, and exactly the two progress
    lines are printed. *)
Theorem load_optimizes_when_needed (filename : string) (search_cutoff : Z) (w : World)
    (t : HfstTransducer) :
  files w !! filename = Some (TransducerStream [t]) ->
  is_infinitely_ambiguous t = false ->
  let r := fst (TransducerFile_init engine_msg filename search_cutoff w) in
  let w' := snd (TransducerFile_init engine_msg filename search_cutoff w) in
  (get_type t = HFST_OL_TYPE \/ get_type t = HFST_OLW_TYPE ->
   r = Return (mkTransducerFile search_cutoff t) /\ stdout w' = stdout w)
  /\ (get_type t <> HFST_OL_TYPE /\ get_type t <> HFST_OLW_TYPE ->
      r = Return (mkTransducerFile search_cutoff (lookup_optimize t))
      /\ stdout w' = stdout w ++ ["Transducer not optimized.  Optimizing..."; "Done."]).
Proof.
  intros Hf Hamb. simpl. rewrite TransducerFile_init_cases, Hf, Hamb.
  split.
  - intros [Hty|Hty]; rewrite Hty; simpl; now split.
  - intros [Hol Holw].
    destruct (get_type t); simpl; try (now split); congruence.
Qed.

(** X10: a load that fails prints nothing; and when it fails because the
    path does not exist or the file is not a transducer stream, no stream
    was opened: the world is exactly as it was. *)
Theorem failed_load_leaves_no_trace (filename : string) (search_cutoff : Z)
    (w : World) :
  (forall e, fst (TransducerFile_init engine_msg filename search_cutoff w) = Raise e ->
             stdout (snd (TransducerFile_init engine_msg filename search_cutoff w))
             = stdout w)
  /\ (files w !! filename = None \/ files w !! filename = Some NotTransducerStream ->
      snd (TransducerFile_init engine_msg filename search_cutoff w) = w).
Proof.
  rewrite TransducerFile_init_cases. split.
  - intros e.
    destruct (files w !! filename) as [[|[|t [|t' ts]]]|]; try reflexivity.
    destruct (is_infinitely_ambiguous t); [reflexivity|].
    destruct (negb _); discriminate.
  - intros [-> | ->]; reflexivity.
Qed.

(** X12: the pair's constructor loads the analyser first.  When that load
    fails, its exception is the constructor's and the generator's file is
    not touched; when it succeeds and the generator's load fails, the
    constructor fails with the generator's exception. *)
Theorem pair_init_failure (analyser_path generator_path : string) (search_cutoff : Z)
    (w : World) :
  (forall e,
     fst (TransducerFile_init engine_msg analyser_path search_cutoff w) = Raise e ->
     TransducerPair_init engine_msg analyser_path generator_path search_cutoff w
     = (Raise e, snd (TransducerFile_init engine_msg analyser_path search_cutoff w)))
  /\ (forall h e,
        fst (TransducerFile_init engine_msg analyser_path search_cutoff w) = Return h ->
        fst (TransducerFile_init engine_msg generator_path search_cutoff w) = Raise e ->
        fst (TransducerPair_init engine_msg analyser_path generator_path search_cutoff w)
        = Raise e).
Proof.
  unfold TransducerPair_init, bind, ret.
  pose proof (TransducerFile_init_files analyser_path search_cutoff w) as Hfiles.
  destruct (TransducerFile_init engine_msg analyser_path search_cutoff w)
    as [[ea|a] w1] eqn:Ha; simpl in *.
  - split; [intros e [= <-]; reflexivity|intros h e [=]].
  - split; [intros e [=]|]. intros h e _ Hg.
    rewrite <- (TransducerFile_init_outcome generator_path search_cutoff w1 w Hfiles) in Hg.
    destruct (TransducerFile_init engine_msg generator_path search_cutoff w1)
      as [[eg|g] w2]; simpl in *; congruence.
Qed.

(** X13: the pair's constructor succeeds exactly when each of the two
    files loads on its own, and the pair then holds the two handles those
    loads give. *)
Theorem pair_init_success (analyser_path generator_path : string) (search_cutoff : Z)
    (w : World) (p : TransducerPair) :
  fst (TransducerPair_init engine_msg analyser_path generator_path search_cutoff w)
    = Return p
  <-> fst (TransducerFile_init engine_msg analyser_path search_cutoff w)
        = Return (analyser p)
      /\ fst (TransducerFile_init engine_msg generator_path search_cutoff w)
         = Return (generator p).
Proof.
  unfold TransducerPair_init, bind, ret.
  pose proof (TransducerFile_init_files analyser_path search_cutoff w) as Hfiles.
  rewrite <- (TransducerFile_init_outcome generator_path search_cutoff _ w Hfiles).
  destruct (TransducerFile_init engine_msg analyser_path search_cutoff w)
    as [[ea|a] w1]; simpl.
  - split; [discriminate|intros [[=] _]].
  - destruct (TransducerFile_init engine_msg generator_path search_cutoff w1)
      as [[eg|g] w2]; simpl.
    + split; [discriminate|intros [_ [=]]].
    + destruct p as [pa pg]; simpl. split.
      * intros [= -> ->]. now split.
      * intros [[= ->] [= ->]]. reflexivity.
Qed.

End LoadCoverage.

(** * Further properties of ranking and generation *)

Section SortCoverage.
Context {A K : Type}.
Variable lt : K -> K -> bool.
Variable key : A -> K.

(** A list that is in ascending order already is left as it is. *)
Lemma list_sort_sorted_id (l : list A) :
  StronglySorted (fun a b => lt (key b) (key a) = false) l ->
  list_sort lt key l = l.
Proof.
  induction 1 as [|x l Hs IH Hx]; [reflexivity|].
  cbn [list_sort foldr]. fold (list_sort lt key l). rewrite IH.
  destruct Hx as [|y l' Hy _]; [reflexivity|].
  cbn [sort_insert]. now rewrite Hy.
Qed.

Hypothesis lt_irrefl : forall a, lt a a = false.

(** Two ascending lists that show the same elements, in the same order,
    within every class of tied keys, are the same list. *)
Lemma sorted_ties_unique (l1 l2 : list A) :
  StronglySorted (fun a b => lt (key b) (key a) = false) l1 ->
  StronglySorted (fun a b => lt (key b) (key a) = false) l2 ->
  (forall k, List.filter (fun c => negb (lt (key c) k) && negb (lt k (key c))) l1
           = List.filter (fun c => negb (lt (key c) k) && negb (lt k (key c))) l2) ->
  l1 = l2.
Proof.
  intros Hs1. revert l2.
  induction Hs1 as [|x l1 Hs1 IH Hx]; intros l2 Hs2 Hties.
  - destruct l2 as [|y l2]; [reflexivity|].
    specialize (Hties (key y)). cbn [List.filter] in Hties.
    rewrite lt_irrefl in Hties. discriminate.
  - destruct Hs2 as [|y l2 Hs2 Hy].
    + specialize (Hties (key x)). cbn [List.filter] in Hties.
      rewrite lt_irrefl in Hties. discriminate.
    + assert (Hxy : lt (key x) (key y) = false).
      { pose proof (Hties (key x)) as Hk. cbn [List.filter] in Hk.
        rewrite lt_irrefl in Hk. cbn [negb andb] in Hk.
        assert (Hin : In x (List.filter
                  (fun c => negb (lt (key c) (key x)) && negb (lt (key x) (key c)))
                  (y :: l2))).
        { cbn [List.filter]. rewrite <- Hk. now left. }
        apply filter_In in Hin as [[<-|Hin] _]; [apply lt_irrefl|].
        rewrite List.Forall_forall in Hy. now apply Hy. }
      assert (Hyx : lt (key y) (key x) = false).
      { pose proof (Hties (key y)) as Hk. cbn [List.filter] in Hk.
        rewrite (lt_irrefl (key y)) in Hk. cbn [negb andb] in Hk.
        assert (Hin : In y (List.filter
                  (fun c => negb (lt (key c) (key y)) && negb (lt (key y) (key c)))
                  (x :: l1))).
        { cbn [List.filter]. rewrite Hk. now left. }
        apply filter_In in Hin as [[<-|Hin] _]; [apply lt_irrefl|].
        rewrite List.Forall_forall in Hx. now apply Hx. }
      assert (Heq : x = y).
      { pose proof (Hties (key x)) as Hk. cbn [List.filter] in Hk.
        rewrite lt_irrefl, Hxy, Hyx in Hk. cbn [negb andb] in Hk. congruence. }
      subst y. f_equal. apply IH; [exact Hs2|].
      intros k. specialize (Hties k). cbn [List.filter] in Hties.
      destruct (negb (lt (key x) k) && negb (lt k (key x))); congruence.
Qed.

End SortCoverage.

Section RankingCoverage.
Context `{HfstModule} `{TypesModule}.

(** X14: when the candidates come from the analyser in ascending order of
    their keys already, [analyse] with that distance returns them in the
    order it would return them without one. *)
Theorem analyse_keeps_ascending_candidates (self : TransducerPair) (input : fst_input)
    (distance : string -> string -> pyfloat) :
  StronglySorted
    (fun a b => float_lt (analyse_key distance (py_str input) b)
                         (analyse_key distance (py_str input) a) = false)
    (analyse self input None) ->
  analyse self input (Some distance) = analyse self input None.
Proof.
  intros Hsorted. unfold analyse in *. now apply list_sort_sorted_id.
Qed.

(** X15: when no candidate has a standardized form, all keys are plus
    infinity and [analyse] returns the candidates in the analyser's order
    whatever the distance. *)
Theorem analyse_without_standardized_forms (self : TransducerPair) (input : fst_input)
    (distance : string -> string -> pyfloat) :
  List.Forall (fun a => standardized a = None) (analyse self input None) ->
  analyse self input (Some distance) = analyse self input None.
Proof.
  intros Hnone. unfold analyse in *. apply list_sort_sorted_id.
  induction Hnone as [|a l Ha Hl IH]; constructor; [exact IH|].
  eapply List.Forall_impl; [|exact Hl].
  intros b Hb. unfold analyse_key. now rewrite Hb.
Qed.

(** X16: the order [analyse] returns is the only one with its two
    properties: a list that is ascending by key and shows, within every
    class of tied keys, the candidates of that class in the analyser's
    order, is the list [analyse] returns. *)
Theorem analyse_order_unique (self : TransducerPair) (input : fst_input)
    (distance : string -> string -> pyfloat) (l : list FullAnalysis) :
  StronglySorted
    (fun a b => float_lt (analyse_key distance (py_str input) b)
                         (analyse_key distance (py_str input) a) = false) l ->
  (forall k : pyfloat,
     List.filter (fun c => float_tie (analyse_key distance (py_str input) c) k) l
     = List.filter (fun c => float_tie (analyse_key distance (py_str input) c) k)
                   (analyse self input None)) ->
  l = analyse self input (Some distance).
Proof.
  intros Hsorted Hties.
  apply (sorted_ties_unique float_lt (analyse_key distance (py_str input))
           float_lt_irrefl); [exact Hsorted| |].
  - apply list_sort_sorted; [exact float_lt_asym|exact float_le_trans].
  - intros k. unfold float_tie in Hties. rewrite Hties.
    symmetry. apply list_sort_filter.
    intros x y Hx Hy. exact (float_tie_not_lt _ _ k Hx Hy).
Qed.

(** X17: [generate] looks an [Analysis] up in the generator as one string,
    the concatenation of its prefixes, its lemma and its suffixes with
    nothing between them, and so returns what it returns for that string. *)
Theorem generate_flattens_analysis (self : TransducerPair) (a : Analysis) :
  TransducerPair_generate self (GenAnalysis a)
    = TransducerPair_generate self
        (GenOther (InStr (join (prefixes a ++ lemma a :: suffixes a))))
  /\ TransducerPair_generate self (GenAnalysis a)
     = weighted_lookup_full_wordform (generator self)
         (InStr (join (prefixes a ++ lemma a :: suffixes a))).
Proof.
  assert (Hjoin : (join (prefixes a) ++ lemma a ++ join (suffixes a))%string
                  = join (prefixes a ++ lemma a :: suffixes a)).
  { now rewrite join_app, join_cons. }
  unfold TransducerPair_generate. rewrite Hjoin. now split.
Qed.

End RankingCoverage.

(** ** The further properties at concrete inputs *)

Lemma generate_unanimous_witness :
  @generate example_types (Some (generator example_pair)) ["ab"; "+B"] = Some "a".
Proof.
  apply (@generate_unanimous example_types).
  - vm_compute. discriminate.
  - vm_compute. repeat constructor.
Defined.

Lemma generate_is_generator_output_witness :
  exists r,
    last (_weighted_lookup (generator example_pair)
            (@fst_output_format example_types ["ab"; "+B"])) = Some r
    /\ In r (_weighted_lookup (generator example_pair)
               (@fst_output_format example_types ["ab"; "+B"]))
    /\ join (snd r) = "a".
Proof.
  apply (@generate_is_generator_output example_types). reflexivity.
Defined.

Lemma generate_disagreement_witness :
  @generate example_types (Some (generator example_pair)) ["ab"; "+C"] = None.
Proof.
  apply (@generate_disagreement example_types (generator example_pair) ["ab"; "+C"]
           (weight_zero, ["a"]) (Finite 1%Q, ["@P.X.Y@"; "a"])).
  - vm_compute. repeat (apply List.Forall_cons; [discriminate|]). apply List.Forall_nil.
  - vm_compute. now left.
  - vm_compute. right. now left.
  - vm_compute. discriminate.
Defined.

Lemma bulk_lookup_set_of_words_witness :
  @bulk_lookup example_hfst example_types example_analyser ["x"; "go"; "x"]
  = @bulk_lookup example_hfst example_types example_analyser ["go"; "x"].
Proof.
  apply bulk_lookup_set_of_words.
  intros word. rewrite !elem_of_cons, !elem_of_nil. tauto.
Defined.

Lemma load_optimizes_when_needed_witness :
  (fst (TransducerFile_init "" "generator.hfst" 60 example_world) = Return example_loaded
   /\ stdout (snd (TransducerFile_init "" "generator.hfst" 60 example_world))
      = ["Transducer not optimized.  Optimizing..."; "Done."])
  /\ (fst (TransducerFile_init "" "analyser.hfstol" 60 example_world)
        = Return example_analyser
      /\ stdout (snd (TransducerFile_init "" "analyser.hfstol" 60 example_world)) = []).
Proof.
  split.
  - pose proof (load_optimizes_when_needed "" "generator.hfst" 60 example_world
                  (table_transducer [] false TROPICAL_OPENFST_TYPE)) as Hload.
    cbv zeta in Hload.
    destruct Hload as [_ Hopt]; [vm_compute; reflexivity|reflexivity|].
    apply Hopt. split; discriminate.
  - pose proof (load_optimizes_when_needed "" "analyser.hfstol" 60 example_world
                  (transducer example_analyser)) as Hload.
    cbv zeta in Hload.
    destruct Hload as [Hkeep _]; [vm_compute; reflexivity|reflexivity|].
    apply Hkeep. now right.
Defined.

Lemma pair_init_failure_witness :
  TransducerPair_init "" "missing.hfst" "generator.hfst" 60 example_world
    = (Raise (FileNotFoundError "Transducer not found: ‘missing.hfst’"), example_world)
  /\ fst (TransducerPair_init "" "analyser.hfstol" "loop.hfst" 60 example_world)
     = Raise (RuntimeWarning "The transducer is infinitely ambiguous.").
Proof.
  split.
  - apply (proj1 (pair_init_failure "" "missing.hfst" "generator.hfst" 60 example_world)
             (FileNotFoundError "Transducer not found: ‘missing.hfst’")).
    vm_compute; reflexivity.
  - apply (proj2 (pair_init_failure "" "analyser.hfstol" "loop.hfst" 60 example_world)
             example_analyser).
    + vm_compute; reflexivity.
    + vm_compute; reflexivity.
Defined.

Lemma analyse_keeps_ascending_candidates_witness :
  @analyse example_types example_pair (InStr "x") (Some infinite_distance)
  = @analyse example_types example_pair (InStr "x") None.
Proof.
  apply (@analyse_keeps_ascending_candidates example_types).
  vm_compute. repeat constructor.
Defined.

Lemma analyse_without_standardized_forms_witness :
  @analyse example_types example_pair_mute (InStr "ab") (Some length_distance)
  = @analyse example_types example_pair_mute (InStr "ab") None.
Proof.
  apply (@analyse_without_standardized_forms example_types).
  vm_compute. repeat constructor.
Defined.

Lemma analyse_order_unique_witness :
  [mkFullAnalysis weight_zero ["x"; "+V"] (Some "y");
   mkFullAnalysis weight_zero ["x"; "+N"] None]
  = @analyse example_types example_pair (InStr "x") (Some length_distance).
Proof.
  apply (@analyse_order_unique example_types).
  - vm_compute. repeat constructor.
  - intros [|q|]; [reflexivity| |reflexivity].
    change (@analyse example_types example_pair (InStr "x") None)
      with [mkFullAnalysis weight_zero ["x"; "+N"] None;
            mkFullAnalysis weight_zero ["x"; "+V"] (Some "y")].
    cbn [List.filter].
    change (analyse_key length_distance (@py_str example_types (InStr "x"))
              (mkFullAnalysis weight_zero ["x"; "+N"] None)) with PosInfinity.
    change (float_tie PosInfinity (Finite q)) with false.
    destruct (float_tie _ (Finite q)); reflexivity.
Defined.
